(** * scipy.ndimage.fourier: output provisioning and parameter normalisation

    A shallow embedding of [scipy/ndimage/fourier.py].  The module is a thin
    front end: each of the four public filters converts its input, provisions
    an output array, normalises [axis] and the per-axis parameter through
    [_ni_support], and delegates to a native kernel of [_nd_image].

    Python objects live in a heap addressed by locations, so that "the same
    array object" (the [output] handed back, or [output] aliasing [input]) is
    expressible.  Exceptions are a sum type threaded through a state-and-error
    monad; the state that an exception leaves behind is kept. *)

From Stdlib Require Import ZArith.
From stdpp Require Import base decidable option list strings.

Local Open Scope Z_scope.

(** ** The part of numpy the module relies on *)

Module numpy.

(** Scalar types ([numpy.float64] and friends); these are the objects that
    [dtype.type] returns and that callers pass as [output=<type>]. *)
Inductive scalar_type : Set :=
| bool_ | int8 | int16 | int32 | int64
| uint8 | uint16 | uint32 | uint64
| float16 | float32 | float64 | longdouble
| complex64 | complex128 | clongdouble
| object_.

#[global] Instance scalar_type_eq_dec : EqDecision scalar_type.
Proof. solve_decision. Defined.

Inductive byteorder : Set := native | swapped.

#[global] Instance byteorder_eq_dec : EqDecision byteorder.
Proof. solve_decision. Defined.

(** A [numpy.dtype] object: the scalar type plus the byte order.  The
    source tests [input.dtype.type] but allocates with [input.dtype]. *)
Record dtype : Set := mk_dtype { type : scalar_type; order : byteorder }.

#[global] Instance dtype_eq_dec : EqDecision dtype.
Proof. solve_decision. Defined.

(** [numpy.dtype(t)] for a scalar type [t]. *)
Definition dtype_of (t : scalar_type) : dtype :=
  {| type := t; order := native |}.

Record ndarray (value : Type) : Type := mk_ndarray {
  shape : list nat;
  dtype_ : dtype;
  contiguous : bool;
  data : list value
}.
Arguments mk_ndarray {value}.
Arguments shape {value}.
Arguments dtype_ {value}.
Arguments contiguous {value}.
Arguments data {value}.

Definition ndim {value} (a : ndarray value) : nat := length (shape a).

(** Number of elements of an array of the given shape. *)
Definition size_of (shp : list nat) : nat := foldr Nat.mul 1%nat shp.

(** The array that [numpy.zeros(shape, dtype=d)] builds. *)
Definition zeros {value} (zero : scalar_type → value)
    (shp : list nat) (d : dtype) : ndarray value :=
  {| shape := shp; dtype_ := d; contiguous := true;
     data := replicate (size_of shp) (zero (type d)) |}.

(** [a.copy()]: a fresh C-contiguous array with the same contents. *)
Definition copy {value} (a : ndarray value) : ndarray value :=
  {| shape := shape a; dtype_ := dtype_ a; contiguous := true;
     data := data a |}.

(** [numpy.asarray(seq, dtype=t)] on a flat Python list. *)
Definition asarray_list {value} (cast : scalar_type → value → value)
    (seq : list value) (t : scalar_type) : ndarray value :=
  {| shape := [length seq]; dtype_ := dtype_of t; contiguous := true;
     data := cast t <$> seq |}.

End numpy.

Import numpy.

(** ** Python-level values of the module *)

Definition loc := nat.

(** Objects for which [type(x) is types.TypeType] holds: numpy's scalar
    types and the other classes of the interpreter, the latter by name. *)
Inductive type_object : Set :=
| NumpyType (t : scalar_type)
| PyClass (name : string).

#[global] Instance type_object_eq_dec : EqDecision type_object.
Proof. solve_decision. Defined.

(** The three forms of the [output] argument. *)
Inductive output_arg : Set :=
| OutNone
| OutType (t : type_object)
| OutArray (l : loc).

Inductive exn : Set :=
| RuntimeError (msg : string)
| TypeError (msg : string)
| AxisOutOfRange
| LengthMismatch
| KernelError (msg : string).

#[global] Instance exn_eq_dec : EqDecision exn.
Proof. solve_decision. Defined.

Definition unsupported_type : exn := RuntimeError "output type not supported".
Definition shape_mismatch : exn := RuntimeError "output shape not correct".

(** A filter parameter as the caller writes it. *)
Inductive param_arg (value : Type) : Type :=
| Scalar (p : value)
| PerAxis (ps : list value).
Arguments Scalar {value}.
Arguments PerAxis {value}.

(** ** _ni_support *)

Module _ni_support.

(** Modelled from the spec: [_ni_support._check_axis] is not part of the
    sources at hand.  "Accepts an integer in [-ndim, ndim); negative values
    map to ndim + value; any value outside the valid range fails with an
    out-of-range error." *)
Definition _check_axis (axis : Z) (rank : nat) : exn + Z :=
  if bool_decide (- Z.of_nat rank ≤ axis < Z.of_nat rank)
  then inr (if bool_decide (axis < 0) then Z.of_nat rank + axis else axis)
  else inl AxisOutOfRange.

(** Modelled from the spec: [_ni_support._normalize_sequence] is not part
    of the sources at hand.  "Accepts either a single scalar (broadcast to
    a sequence of length ndim, every element equal to that scalar) or a
    sequence; if a sequence, its length must equal ndim, else fails with a
    length-mismatch error." *)
Definition _normalize_sequence {value} (input : param_arg value)
    (rank : nat) : exn + list value :=
  match input with
  | Scalar p => inr (replicate rank p)
  | PerAxis ps =>
      if bool_decide (length ps ≠ rank) then inl LengthMismatch
      else inr ps
  end.

End _ni_support.

(** ** Sample data

    Integer-valued arrays and two stand-in kernels, used to run the
    definitions below on concrete calls. *)

Module sample.

Definition zero (_ : scalar_type) : Z := 0.
Definition cast (_ : scalar_type) (v : Z) : Z := v.

(** A kernel that doubles every element of [input] into [output]; it
    refuses inputs of more than three dimensions. *)
Definition write (h : list (ndarray Z)) (input output : loc)
    : list (ndarray Z) * option exn :=
  match h !! input, h !! output with
  | Some i, Some o =>
      if bool_decide (3 < ndim i)%nat
      then (h, Some (KernelError "unsupported rank"))
      else (<[output :=
               mk_ndarray (shape o) (dtype_ o) (contiguous o)
                 ((λ v, 2 * v) <$> data i)]> h, None)
  | _, _ => (h, Some (KernelError "no such object"))
  end.

Definition fourier_filter (h : list (ndarray Z)) (input : loc)
    (params : ndarray Z) (n axis : Z) (output : loc) (kind : Z)
    : list (ndarray Z) * option exn :=
  write h input output.

Definition fourier_shift (h : list (ndarray Z)) (input : loc)
    (params : ndarray Z) (n axis : Z) (output : loc)
    : list (ndarray Z) * option exn :=
  write h input output.

(** [ones((4,4))], [zeros((4,4))], [zeros((4,5))] and two 8-element
    vectors. *)
Definition ones_4_4 : ndarray Z :=
  mk_ndarray [4; 4]%nat (dtype_of float64) true (replicate 16 1).
Definition zeros_4_4 : ndarray Z :=
  mk_ndarray [4; 4]%nat (dtype_of float64) true (replicate 16 0).
Definition zeros_4_5 : ndarray Z :=
  mk_ndarray [4; 5]%nat (dtype_of float64) true (replicate 20 0).
Definition ones_8_complex : ndarray Z :=
  mk_ndarray [8]%nat (dtype_of complex128) true (replicate 8 1).
Definition zeros_8_float : ndarray Z :=
  mk_ndarray [8]%nat (dtype_of float64) true (replicate 8 0).
Definition ones_8_int : ndarray Z :=
  mk_ndarray [8]%nat (dtype_of int32) true (replicate 8 1).

End sample.

(** ** The module itself *)

Section fourier.

(** Numbers, as Python scalars and as array elements. *)
Variable value : Type.
(** The zero of each scalar type, and numpy's conversion to one. *)
Variable zero : scalar_type → value.
Variable cast : scalar_type → value → value.

Abbreviation heap := (list (ndarray value)).

(** The native kernels [_nd_image.fourier_filter] and
    [_nd_image.fourier_shift].  They are compiled code outside this module:
    all that is fixed here is the calling convention.  A kernel sees the
    heap and the objects it was handed; it leaves a heap and may have
    raised. *)
Variable _nd_image_fourier_filter :
  heap → loc → ndarray value → Z → Z → loc → Z → heap * option exn.
Variable _nd_image_fourier_shift :
  heap → loc → ndarray value → Z → Z → loc → heap * option exn.

(** One record per kernel invocation, with the arguments as passed. *)
Inductive kernel_call : Type :=
| FourierFilter (input : loc) (params : ndarray value) (n axis : Z)
    (output : loc) (kind : Z)
| FourierShift (input : loc) (params : ndarray value) (n axis : Z)
    (output : loc).

Record state : Type := mk_state {
  objects : heap;
  calls : list kernel_call
}.

#[local] Instance ndarray_inhabited : Inhabited (ndarray value) :=
  populate (mk_ndarray [] (dtype_of float64) true []).

Definition M (A : Type) : Type := state → state * (exn + A).

#[local] Instance M_ret : MRet M := λ A x σ, (σ, inr x).
#[local] Instance M_bind : MBind M := λ A B f m σ,
  match m σ with
  | (σ', inl e) => (σ', inl e)
  | (σ', inr x) => f x σ'
  end.

Definition raise {A} (e : exn) : M A := λ σ, (σ, inl e).

Definition lift {A} (r : exn + A) : M A := λ σ, (σ, r).

(** The result of a step that yields [x] unless it raised. *)
Definition outcome {A} (raised : option exn) (x : A) : exn + A :=
  match raised with
  | Some e => inl e
  | None => inr x
  end.

(** Attribute access on the object at [l].  Every argument of a call is a
    live object; a location beyond the heap, which no call can hold, reads
    as an empty array. *)
Definition deref (l : loc) : M (ndarray value) :=
  λ σ, (σ, inr (objects σ !!! l)).

(** A new object; its location is the next free one. *)
Definition alloc (a : ndarray value) : M loc :=
  λ σ, (mk_state (objects σ ++ [a]) (calls σ), inr (length (objects σ))).

Definition numpy_zeros (shp : list nat) (d : dtype) : M loc :=
  alloc (zeros zero shp d).

(** [numpy.asarray] returns an ndarray argument as it is. *)
Definition numpy_asarray (input : loc) : M loc := mret input.

(** [numpy.zeros(shape, dtype=t)] for a type object [t]: numpy turns the
    Python classes it knows into their dtype and rejects the others. *)
Definition dtype_of_type (t : type_object) : exn + dtype :=
  match t with
  | NumpyType t => inr (dtype_of t)
  | PyClass name =>
      if bool_decide (name = "float") then inr (dtype_of float64)
      else if bool_decide (name = "int") then inr (dtype_of int64)
      else if bool_decide (name = "complex") then inr (dtype_of complex128)
      else if bool_decide (name = "bool") then inr (dtype_of bool_)
      else inl (TypeError "data type not understood")
  end.

Definition _get_output_fourier (output : output_arg) (input : loc)
    : M (loc * option loc) :=
  inp ← deref input;
  match output with
  | OutNone =>
      output ← (if bool_decide (type (dtype_ inp) ∈
                                  [complex64; complex128; float32])
                then numpy_zeros (shape inp) (dtype_ inp)
                else numpy_zeros (shape inp) (dtype_of float64));
      mret (output, Some output)
  | OutType t =>
      if bool_decide (t ∉ [NumpyType complex64; NumpyType complex128;
                           NumpyType float32; NumpyType float64])
      then raise unsupported_type
      else
        d ← lift (dtype_of_type t);
        output ← numpy_zeros (shape inp) d;
        mret (output, Some output)
  | OutArray out =>
      o ← deref out;
      if bool_decide (shape o ≠ shape inp)
      then raise shape_mismatch
      else mret (out, None)
  end.

Definition _get_output_fourier_complex (output : output_arg) (input : loc)
    : M (loc * option loc) :=
  inp ← deref input;
  match output with
  | OutNone =>
      output ← (if bool_decide (type (dtype_ inp) ∈
                                  [complex64; complex128])
                then numpy_zeros (shape inp) (dtype_ inp)
                else numpy_zeros (shape inp) (dtype_of complex128));
      mret (output, Some output)
  | OutType t =>
      if bool_decide (t ∉ [NumpyType complex64; NumpyType complex128])
      then raise unsupported_type
      else
        d ← lift (dtype_of_type t);
        output ← numpy_zeros (shape inp) d;
        mret (output, Some output)
  | OutArray out =>
      o ← deref out;
      if bool_decide (shape o ≠ shape inp)
      then raise shape_mismatch
      else mret (out, None)
  end.

(** [input.ndim] *)
Definition input_ndim (input : loc) : M nat :=
  a ← deref input; mret (ndim a).

(** [numpy.asarray(seq, dtype = numpy.float64)] followed by the copy that
    is taken when the result is not contiguous. *)
Definition as_contiguous_float64 (seq : list value) : ndarray value :=
  let a := asarray_list cast seq float64 in
  if negb (contiguous a) then copy a else a.

Definition call_fourier_filter (input : loc) (params : ndarray value)
    (n axis : Z) (output : loc) (kind : Z) : M unit :=
  λ σ,
    let log := calls σ ++ [FourierFilter input params n axis output kind] in
    let '(h, raised) :=
      _nd_image_fourier_filter (objects σ) input params n axis output kind in
    (mk_state h log, outcome raised ()).

Definition call_fourier_shift (input : loc) (params : ndarray value)
    (n axis : Z) (output : loc) : M unit :=
  λ σ,
    let log := calls σ ++ [FourierShift input params n axis output] in
    let '(h, raised) :=
      _nd_image_fourier_shift (objects σ) input params n axis output in
    (mk_state h log, outcome raised ()).

(** The four public functions.  The keyword defaults of the source
    ([n = -1], [axis = -1], [output = None]) are written out by the
    caller. *)
Definition fourier_gaussian (input : loc) (sigma : param_arg value)
    (n axis : Z) (output : output_arg) : M (option loc) :=
  input ← numpy_asarray input;
  '(output, return_value) ← _get_output_fourier output input;
  rank ← input_ndim input;
  axis ← lift (_ni_support._check_axis axis rank);
  rank ← input_ndim input;
  sigmas ← lift (_ni_support._normalize_sequence sigma rank);
  let sigmas := as_contiguous_float64 sigmas in
  _ ← call_fourier_filter input sigmas n axis output 0;
  mret return_value.

Definition fourier_uniform (input : loc) (size : param_arg value)
    (n axis : Z) (output : output_arg) : M (option loc) :=
  input ← numpy_asarray input;
  '(output, return_value) ← _get_output_fourier output input;
  rank ← input_ndim input;
  axis ← lift (_ni_support._check_axis axis rank);
  rank ← input_ndim input;
  sizes ← lift (_ni_support._normalize_sequence size rank);
  let sizes := as_contiguous_float64 sizes in
  _ ← call_fourier_filter input sizes n axis output 1;
  mret return_value.

Definition fourier_ellipsoid (input : loc) (size : param_arg value)
    (n axis : Z) (output : output_arg) : M (option loc) :=
  input ← numpy_asarray input;
  '(output, return_value) ← _get_output_fourier output input;
  rank ← input_ndim input;
  axis ← lift (_ni_support._check_axis axis rank);
  rank ← input_ndim input;
  sizes ← lift (_ni_support._normalize_sequence size rank);
  let sizes := as_contiguous_float64 sizes in
  _ ← call_fourier_filter input sizes n axis output 2;
  mret return_value.

Definition fourier_shift (input : loc) (shift : param_arg value)
    (n axis : Z) (output : output_arg) : M (option loc) :=
  input ← numpy_asarray input;
  '(output, return_value) ← _get_output_fourier_complex output input;
  rank ← input_ndim input;
  axis ← lift (_ni_support._check_axis axis rank);
  rank ← input_ndim input;
  shifts ← lift (_ni_support._normalize_sequence shift rank);
  let shifts := as_contiguous_float64 shifts in
  _ ← call_fourier_shift input shifts n axis output;
  mret return_value.

(** The names exported in [__all__]. *)
Inductive public_op : Set :=
| op_gaussian | op_uniform | op_ellipsoid | op_shift.

Definition run (op : public_op) :
    loc → param_arg value → Z → Z → output_arg → M (option loc) :=
  match op with
  | op_gaussian => fourier_gaussian
  | op_uniform => fourier_uniform
  | op_ellipsoid => fourier_ellipsoid
  | op_shift => fourier_shift
  end.

(** Which provisioner and which kernel entry point each operation uses;
    the filter kinds are 0 (gaussian), 1 (uniform) and 2 (ellipsoid). *)
Definition provisioner (op : public_op) :
    output_arg → loc → M (loc * option loc) :=
  match op with
  | op_shift => _get_output_fourier_complex
  | _ => _get_output_fourier
  end.

Definition invoke (op : public_op) (input : loc) (params : ndarray value)
    (n axis : Z) (output : loc) : M unit :=
  match op with
  | op_gaussian => call_fourier_filter input params n axis output 0
  | op_uniform => call_fourier_filter input params n axis output 1
  | op_ellipsoid => call_fourier_filter input params n axis output 2
  | op_shift => call_fourier_shift input params n axis output
  end.

Definition kernel (op : public_op) (h : heap) (input : loc)
    (params : ndarray value) (n axis : Z) (output : loc)
    : heap * option exn :=
  match op with
  | op_gaussian => _nd_image_fourier_filter h input params n axis output 0
  | op_uniform => _nd_image_fourier_filter h input params n axis output 1
  | op_ellipsoid => _nd_image_fourier_filter h input params n axis output 2
  | op_shift => _nd_image_fourier_shift h input params n axis output
  end.

Definition kernel_record (op : public_op) (input : loc)
    (params : ndarray value) (n axis : Z) (output : loc) : kernel_call :=
  match op with
  | op_gaussian => FourierFilter input params n axis output 0
  | op_uniform => FourierFilter input params n axis output 1
  | op_ellipsoid => FourierFilter input params n axis output 2
  | op_shift => FourierShift input params n axis output
  end.

Definition call_input (c : kernel_call) : loc :=
  match c with
  | FourierFilter input _ _ _ _ _ | FourierShift input _ _ _ _ => input
  end.

Definition call_output (c : kernel_call) : loc :=
  match c with
  | FourierFilter _ _ _ _ output _ | FourierShift _ _ _ _ output => output
  end.

(** The state after allocating [a]. *)
Definition with_new (σ : state) (a : ndarray value) : state :=
  mk_state (objects σ ++ [a]) (calls σ).

(** The dtype each provisioner picks when [output] is absent. *)
Definition default_dtype (d : dtype) : dtype :=
  if bool_decide (type d ∈ [complex64; complex128; float32])
  then d else dtype_of float64.

Definition default_dtype_complex (d : dtype) : dtype :=
  if bool_decide (type d ∈ [complex64; complex128])
  then d else dtype_of complex128.

(** The scalar types an array allocated for each operation can have. *)
Definition allowed (op : public_op) : list scalar_type :=
  match op with
  | op_shift => [complex64; complex128]
  | _ => [complex64; complex128; float32; float64]
  end.

Definition default_for (op : public_op) : dtype → dtype :=
  match op with
  | op_shift => default_dtype_complex
  | _ => default_dtype
  end.

Definition call_params (c : kernel_call) : ndarray value :=
  match c with
  | FourierFilter _ params _ _ _ _ | FourierShift _ params _ _ _ => params
  end.

Definition call_n (c : kernel_call) : Z :=
  match c with
  | FourierFilter _ _ n _ _ _ | FourierShift _ _ n _ _ => n
  end.

Definition call_axis (c : kernel_call) : Z :=
  match c with
  | FourierFilter _ _ _ axis _ _ | FourierShift _ _ _ axis _ => axis
  end.

(** ** Facts about the heap and the monad *)

Lemma with_new_fresh σ a :
  objects σ !! length (objects σ) = None
  ∧ objects (with_new σ a) !! length (objects σ) = Some a.
Proof.
  split.
  - apply lookup_ge_None. lia.
  - unfold with_new; simpl. rewrite lookup_app_r by lia.
    by rewrite Nat.sub_diag.
Qed.

Lemma with_new_old σ a l :
  (l < length (objects σ))%nat →
  objects (with_new σ a) !!! l = objects σ !!! l.
Proof. intros Hl. unfold with_new; simpl. by rewrite lookup_total_app_l. Qed.

Lemma zeros_filled shp d :
  Forall (λ v, v = zero (type d)) (data (zeros zero shp d))
  ∧ length (data (zeros zero shp d)) = size_of shp.
Proof.
  split; simpl.
  - apply Forall_replicate. reflexivity.
  - apply length_replicate.
Qed.

(** ** The output provisioners *)

(** C1.  With [output] absent the real-or-input-typed provisioner allocates
    one new array, zero-filled, of the input's shape; its dtype is the
    input's when that is complex64, complex128 or float32 and float64
    otherwise; the new array is both the output and the value to return. *)
Theorem get_output_fourier_absent (σ : state) (input : loc) :
  let inp := objects σ !!! input in
  let d := if bool_decide (type (dtype_ inp) ∈
                             [complex64; complex128; float32])
           then dtype_ inp else dtype_of float64 in
  let out := zeros zero (shape inp) d in
  let new := length (objects σ) in
  _get_output_fourier OutNone input σ = (with_new σ out, inr (new, Some new))
  ∧ objects σ !! new = None
  ∧ objects (with_new σ out) !! new = Some out
  ∧ shape out = shape inp
  ∧ dtype_ out = d
  ∧ Forall (λ v, v = zero (type d)) (data out)
  ∧ length (data out) = size_of (shape inp).
Proof.
  intros inp d out new.
  destruct (with_new_fresh σ out) as [Hfresh Hnew].
  destruct (zeros_filled (shape inp) d) as [Hz Hlen].
  repeat split; try assumption.
  unfold _get_output_fourier, deref, numpy_zeros, alloc, mbind, M_bind,
    mret, M_ret.
  subst out d new inp.
  case_bool_decide; reflexivity.
Qed.

Ltac run_monad :=
  unfold mbind, M_bind, mret, M_ret, raise, lift, deref, numpy_zeros,
    alloc, numpy_asarray, input_ndim, with_new; simpl.

Lemma accepted_real (t : type_object) :
  t ∈ [NumpyType complex64; NumpyType complex128;
       NumpyType float32; NumpyType float64]
  ↔ ∃ ty, t = NumpyType ty ∧ ty ∈ [complex64; complex128; float32; float64].
Proof.
  rewrite !elem_of_cons, elem_of_nil. split.
  - intros [-> | [-> | [-> | [-> | []]]]]; eexists; split; try reflexivity;
      rewrite !elem_of_cons; tauto.
  - intros (ty & -> & H). rewrite !elem_of_cons, elem_of_nil in H.
    destruct H as [-> | [-> | [-> | [-> | []]]]]; tauto.
Qed.

Lemma accepted_complex (t : type_object) :
  t ∈ [NumpyType complex64; NumpyType complex128]
  ↔ ∃ ty, t = NumpyType ty ∧ ty ∈ [complex64; complex128].
Proof.
  rewrite !elem_of_cons, elem_of_nil. split.
  - intros [-> | [-> | []]]; eexists; split; try reflexivity;
      rewrite !elem_of_cons; tauto.
  - intros (ty & -> & H). rewrite !elem_of_cons, elem_of_nil in H.
    destruct H as [-> | [-> | []]]; tauto.
Qed.

Lemma get_output_fourier_none σ input :
  _get_output_fourier OutNone input σ =
    (with_new σ (zeros zero (shape (objects σ !!! input))
                   (default_dtype (dtype_ (objects σ !!! input)))),
     inr (length (objects σ), Some (length (objects σ)))).
Proof.
  unfold _get_output_fourier, default_dtype. run_monad.
  case_bool_decide; reflexivity.
Qed.

Lemma get_output_fourier_complex_none σ input :
  _get_output_fourier_complex OutNone input σ =
    (with_new σ (zeros zero (shape (objects σ !!! input))
                   (default_dtype_complex (dtype_ (objects σ !!! input)))),
     inr (length (objects σ), Some (length (objects σ)))).
Proof.
  unfold _get_output_fourier_complex, default_dtype_complex. run_monad.
  case_bool_decide; reflexivity.
Qed.

(** complex64 stays complex64 and int32 becomes float64 for the three
    real-mask filters; float32 and float64 become complex128 for the
    shift. *)
Example default_dtype_samples :
  default_dtype (dtype_of complex64) = dtype_of complex64
  ∧ default_dtype (dtype_of int32) = dtype_of float64
  ∧ default_dtype (mk_dtype float32 swapped) = mk_dtype float32 swapped
  ∧ default_dtype_complex (dtype_of float64) = dtype_of complex128
  ∧ default_dtype_complex (dtype_of float32) = dtype_of complex128.
Proof. repeat split. Qed.

Lemma get_output_fourier_array σ input out :
  _get_output_fourier (OutArray out) input σ =
    if bool_decide (shape (objects σ !!! out) ≠ shape (objects σ !!! input))
    then (σ, inl shape_mismatch) else (σ, inr (out, None)).
Proof.
  unfold _get_output_fourier. run_monad. case_bool_decide; reflexivity.
Qed.

Lemma get_output_fourier_complex_array σ input out :
  _get_output_fourier_complex (OutArray out) input σ =
    if bool_decide (shape (objects σ !!! out) ≠ shape (objects σ !!! input))
    then (σ, inl shape_mismatch) else (σ, inr (out, None)).
Proof.
  unfold _get_output_fourier_complex. run_monad.
  case_bool_decide; reflexivity.
Qed.

Lemma get_output_fourier_type_ok σ input ty :
  ty ∈ [complex64; complex128; float32; float64] →
  _get_output_fourier (OutType (NumpyType ty)) input σ =
    (with_new σ (zeros zero (shape (objects σ !!! input)) (dtype_of ty)),
     inr (length (objects σ), Some (length (objects σ)))).
Proof.
  intros H. unfold _get_output_fourier. run_monad.
  rewrite bool_decide_eq_false_2; [reflexivity |].
  intros Hn. apply Hn, accepted_real. eauto.
Qed.

Lemma get_output_fourier_type_bad σ input t :
  t ∉ [NumpyType complex64; NumpyType complex128;
       NumpyType float32; NumpyType float64] →
  _get_output_fourier (OutType t) input σ = (σ, inl unsupported_type).
Proof.
  intros H. unfold _get_output_fourier. run_monad.
  by rewrite bool_decide_eq_true_2.
Qed.

Lemma get_output_fourier_complex_type_ok σ input ty :
  ty ∈ [complex64; complex128] →
  _get_output_fourier_complex (OutType (NumpyType ty)) input σ =
    (with_new σ (zeros zero (shape (objects σ !!! input)) (dtype_of ty)),
     inr (length (objects σ), Some (length (objects σ)))).
Proof.
  intros H. unfold _get_output_fourier_complex. run_monad.
  rewrite bool_decide_eq_false_2; [reflexivity |].
  intros Hn. apply Hn, accepted_complex. eauto.
Qed.

Lemma get_output_fourier_complex_type_bad σ input t :
  t ∉ [NumpyType complex64; NumpyType complex128] →
  _get_output_fourier_complex (OutType t) input σ = (σ, inl unsupported_type).
Proof.
  intros H. unfold _get_output_fourier_complex. run_monad.
  by rewrite bool_decide_eq_true_2.
Qed.

(** C2.  The complex-only provisioner: with [output] absent it keeps the
    input's dtype only for complex64 and complex128 and takes complex128
    otherwise; a type object is accepted only if it is complex64 or
    complex128 and any other raises the unsupported-type error, leaving the
    state as it was; a pre-allocated array is treated exactly as by the
    real-or-input-typed provisioner, and so are the absent and type cases
    whenever the dtype at hand is one of the two complex ones. *)
Theorem get_output_fourier_complex_spec (σ : state) (input : loc) :
  let inp := objects σ !!! input in
  let new := length (objects σ) in
  _get_output_fourier_complex OutNone input σ =
    (with_new σ (zeros zero (shape inp)
                   (if bool_decide (type (dtype_ inp) ∈
                                      [complex64; complex128])
                    then dtype_ inp else dtype_of complex128)),
     inr (new, Some new))
  ∧ (∀ ty, ty ∈ [complex64; complex128] →
       _get_output_fourier_complex (OutType (NumpyType ty)) input σ =
         (with_new σ (zeros zero (shape inp) (dtype_of ty)),
          inr (new, Some new)))
  ∧ (∀ t, t ∉ [NumpyType complex64; NumpyType complex128] →
       _get_output_fourier_complex (OutType t) input σ =
         (σ, inl unsupported_type))
  ∧ (∀ out, _get_output_fourier_complex (OutArray out) input σ =
            _get_output_fourier (OutArray out) input σ)
  ∧ (type (dtype_ inp) ∈ [complex64; complex128] →
       _get_output_fourier_complex OutNone input σ =
       _get_output_fourier OutNone input σ)
  ∧ (∀ t, t ∈ [NumpyType complex64; NumpyType complex128] →
       _get_output_fourier_complex (OutType t) input σ =
       _get_output_fourier (OutType t) input σ).
Proof.
  intros inp new. subst inp new. repeat apply conj.
  - unfold _get_output_fourier_complex. run_monad.
    case_bool_decide; reflexivity.
  - apply get_output_fourier_complex_type_ok.
  - apply get_output_fourier_complex_type_bad.
  - intros out.
    by rewrite get_output_fourier_array, get_output_fourier_complex_array.
  - intros H. unfold _get_output_fourier_complex, _get_output_fourier.
    run_monad. rewrite !bool_decide_eq_true_2; [reflexivity | | assumption].
    revert H. rewrite !elem_of_cons. tauto.
  - intros t (ty & -> & H)%accepted_complex.
    rewrite get_output_fourier_complex_type_ok by assumption.
    rewrite get_output_fourier_type_ok; [reflexivity |].
    revert H. rewrite !elem_of_cons. tauto.
Qed.

(** C3.  Given a type object, the real-or-input-typed provisioner raises
    the unsupported-type error exactly when the object is none of
    complex64, complex128, float32, float64 (and then changes nothing); for
    one of the four it allocates a zero-filled array of that dtype and of the
    input's shape and marks it as the value to return. *)
Theorem get_output_fourier_token (σ : state) (input : loc) (t : type_object) :
  let inp := objects σ !!! input in
  let new := length (objects σ) in
  let accepted := [NumpyType complex64; NumpyType complex128;
                   NumpyType float32; NumpyType float64] in
  (snd (_get_output_fourier (OutType t) input σ) = inl unsupported_type
     ↔ t ∉ accepted)
  ∧ (t ∉ accepted →
       _get_output_fourier (OutType t) input σ = (σ, inl unsupported_type))
  ∧ (t ∈ accepted →
       ∃ ty, t = NumpyType ty
         ∧ _get_output_fourier (OutType t) input σ =
             (with_new σ (zeros zero (shape inp) (dtype_of ty)),
              inr (new, Some new))
         ∧ objects σ !! new = None
         ∧ Forall (λ v, v = zero ty)
             (data (zeros zero (shape inp) (dtype_of ty)))
         ∧ length (data (zeros zero (shape inp) (dtype_of ty))) =
             size_of (shape inp)).
Proof.
  intros inp new accepted. subst inp new accepted.
  assert (Hok : ∀ ty, ty ∈ [complex64; complex128; float32; float64] →
    _get_output_fourier (OutType (NumpyType ty)) input σ =
      (with_new σ (zeros zero (shape (objects σ !!! input)) (dtype_of ty)),
       inr (length (objects σ), Some (length (objects σ)))))
    by apply get_output_fourier_type_ok.
  split; [| split].
  - split.
    + intros Hr Hin. apply accepted_real in Hin as (ty & -> & Hty).
      rewrite (Hok ty Hty) in Hr. discriminate.
    + intros Hn. by rewrite get_output_fourier_type_bad.
  - apply get_output_fourier_type_bad.
  - intros (ty & -> & Hty)%accepted_real. exists ty.
    destruct (zeros_filled (shape (objects σ !!! input)) (dtype_of ty))
      as [Hz Hlen].
    repeat split; try assumption.
    + by apply Hok.
    + apply lookup_ge_None. lia.
Qed.

(** ** The four public operations *)

(** Every operation is the same pipeline: provision, then the axis, then the
    parameter, then the kernel; the first failure ends the call. *)
Lemma run_eq op input param n axis output σ :
  run op input param n axis output σ =
  match provisioner op output input σ with
  | (σ1, inl e) => (σ1, inl e)
  | (σ1, inr (out, rv)) =>
      let rank := ndim (objects σ1 !!! input) in
      match _ni_support._check_axis axis rank with
      | inl e => (σ1, inl e)
      | inr ax =>
          match _ni_support._normalize_sequence param rank with
          | inl e => (σ1, inl e)
          | inr ps =>
              let params := as_contiguous_float64 ps in
              let log :=
                calls σ1 ++ [kernel_record op input params n ax out] in
              let k := kernel op (objects σ1) input params n ax out in
              (mk_state (fst k) log, outcome (snd k) rv)
          end
      end
  end.
Proof.
  destruct op; unfold run, provisioner, fourier_gaussian, fourier_uniform,
    fourier_ellipsoid, fourier_shift, call_fourier_filter,
    call_fourier_shift; run_monad;
  match goal with
  | |- context [?f output input σ] => destruct (f output input σ)
                                        as [σ1 [e | [out rv]]]
  end; try reflexivity;
  destruct (_ni_support._check_axis axis _); try reflexivity;
  destruct (_ni_support._normalize_sequence param _); try reflexivity;
  first [ destruct (_nd_image_fourier_filter _ _ _ _ _ _ _) as [h [e' |]]
        | destruct (_nd_image_fourier_shift _ _ _ _ _ _) as [h [e' |]] ];
  reflexivity.
Qed.

(** What a successful provisioning step has done. *)
Lemma provisioner_ok op output input σ σ1 out rv :
  provisioner op output input σ = (σ1, inr (out, rv)) →
  match output with
  | OutArray l =>
      σ1 = σ ∧ out = l ∧ rv = None
      ∧ shape (objects σ !!! l) = shape (objects σ !!! input)
  | _ =>
      ∃ d, σ1 = with_new σ (zeros zero (shape (objects σ !!! input)) d)
        ∧ out = length (objects σ) ∧ rv = Some out
  end.
Proof.
  assert (Hreal : provisioner op = _get_output_fourier
                  ∨ provisioner op = _get_output_fourier_complex)
    by (destruct op; auto).
  destruct output as [| t | l].
  - destruct Hreal as [-> | ->].
    + rewrite get_output_fourier_none.
      intros [= <- <- <-]. eauto.
    + rewrite get_output_fourier_complex_none.
      intros [= <- <- <-]. eauto.
  - destruct Hreal as [-> | ->].
    + destruct (decide (t ∈ [NumpyType complex64; NumpyType complex128;
                              NumpyType float32; NumpyType float64]))
        as [(ty & -> & Hty)%accepted_real | Hn].
      * rewrite get_output_fourier_type_ok by assumption.
        intros [= <- <- <-]. eauto.
      * by rewrite get_output_fourier_type_bad.
    + destruct (decide (t ∈ [NumpyType complex64; NumpyType complex128]))
        as [(ty & -> & Hty)%accepted_complex | Hn].
      * rewrite get_output_fourier_complex_type_ok by assumption.
        intros [= <- <- <-]. eauto.
      * by rewrite get_output_fourier_complex_type_bad.
  - assert (provisioner op (OutArray l) input σ =
            _get_output_fourier (OutArray l) input σ) as ->.
    { destruct Hreal as [-> | ->]; [reflexivity |].
      by rewrite get_output_fourier_array,
        get_output_fourier_complex_array. }
    rewrite get_output_fourier_array. case_bool_decide as Hs; [done |].
    intros [= <- <- <-]. repeat split.
    exact Hs.
Qed.

(** Provisioning never reaches a kernel. *)
Lemma provisioner_calls op output input σ :
  calls (fst (provisioner op output input σ)) = calls σ.
Proof.
  destruct (provisioner op output input σ) as [σ1 [e | [out rv]]] eqn:E.
  - destruct op, output; simpl in E;
      unfold _get_output_fourier, _get_output_fourier_complex in E;
      revert E; run_monad; repeat case_bool_decide;
      try destruct (dtype_of_type _); simpl; by intros [= <- ?].
  - apply provisioner_ok in E. destruct output; simpl.
    + by destruct E as (d & -> & _).
    + by destruct E as (d & -> & _).
    + by destruct E as (-> & _).
Qed.

(** What a successful call has gone through. *)
Lemma run_success op input param n axis output σ σ' rv :
  run op input param n axis output σ = (σ', inr rv) →
  ∃ σ1 out ax ps,
    provisioner op output input σ = (σ1, inr (out, rv))
    ∧ _ni_support._check_axis axis (ndim (objects σ1 !!! input)) = inr ax
    ∧ _ni_support._normalize_sequence param (ndim (objects σ1 !!! input))
        = inr ps
    ∧ kernel op (objects σ1) input (as_contiguous_float64 ps) n ax out
        = (objects σ', None)
    ∧ calls σ' =
        calls σ1 ++
          [kernel_record op input (as_contiguous_float64 ps) n ax out].
Proof.
  rewrite run_eq.
  destruct (provisioner op output input σ) as [σ1 [e | [out rv']]];
    [done |]. simpl.
  destruct (_ni_support._check_axis _ _) as [e | ax] eqn:Ha; [done |].
  destruct (_ni_support._normalize_sequence _ _) as [e | ps] eqn:Hp;
    [done |].
  destruct (kernel _ _ _ _ _ _ _) as [h [e |]] eqn:Hk; [done |].
  intros [= <- <-]. exists σ1, out, ax, ps. simpl. auto 10.
Qed.

(** C4.  A pre-allocated [output] whose shape differs from the input's makes
    each of the four operations fail with the shape-mismatch error; the
    state is exactly the one before the call, so the buffer is unmodified,
    nothing was allocated and no kernel was invoked.  When the shapes agree
    both provisioners succeed with the in-place decision (the caller's
    buffer as output, nothing to return), and the call goes on to the kernel
    with that buffer once axis and parameter are accepted. *)
Theorem preallocated_shape_check (op : public_op) (σ : state)
    (input out : loc) (param : param_arg value) (n axis : Z) :
  let o := objects σ !!! out in
  let inp := objects σ !!! input in
  let r := run op input param n axis (OutArray out) σ in
  (shape o ≠ shape inp →
     r = (σ, inl shape_mismatch)
     ∧ objects (fst r) !!! out = o
     ∧ calls (fst r) = calls σ)
  ∧ (shape o = shape inp →
     _get_output_fourier (OutArray out) input σ = (σ, inr (out, None))
     ∧ _get_output_fourier_complex (OutArray out) input σ
         = (σ, inr (out, None))
     ∧ ∀ ax ps,
         _ni_support._check_axis axis (ndim inp) = inr ax →
         _ni_support._normalize_sequence param (ndim inp) = inr ps →
         calls (fst r) =
           calls σ ++
             [kernel_record op input (as_contiguous_float64 ps) n ax out]
         ∧ (snd r = inr None
            ∨ ∃ e, snd (kernel op (objects σ) input
                          (as_contiguous_float64 ps) n ax out) = Some e
                   ∧ snd r = inl e)).
Proof.
  intros o inp r. subst o inp r.
  assert (Hp : provisioner op (OutArray out) input σ =
               _get_output_fourier (OutArray out) input σ).
  { by destruct op. }
  rewrite run_eq, Hp, get_output_fourier_complex_array,
    get_output_fourier_array.
  split; intros Hs.
  - by rewrite bool_decide_eq_true_2.
  - rewrite bool_decide_eq_false_2 by (intros Hn; by apply Hn).
    split; [reflexivity | split; [reflexivity |]].
    intros ax ps Ha Hps. simpl. rewrite Ha, Hps.
    destruct (kernel _ _ _ _ _ _ _) as [h [e |]]; simpl; eauto.
Qed.

(** C5.  A call that succeeds returns the location of the array it
    allocated, new on the heap and the one the kernel was given as output,
    when [output] was absent or a type object; it returns [None] when the
    caller passed an array, which is then the one the kernel was given. *)
Theorem return_value_spec (op : public_op) (σ σ' : state) (input : loc)
    (param : param_arg value) (n axis : Z) (output : output_arg)
    (rv : option loc) :
  run op input param n axis output σ = (σ', inr rv) →
  ∃ c, calls σ' = calls σ ++ [c] ∧
    match output with
    | OutArray l => rv = None ∧ call_output c = l
    | _ =>
        rv = Some (length (objects σ))
        ∧ objects σ !! length (objects σ) = None
        ∧ call_output c = length (objects σ)
    end.
Proof.
  intros (σ1 & out & ax & ps & Hp & _ & _ & _ & Hc)%run_success.
  pose proof (provisioner_calls op output input σ) as Hcalls.
  rewrite Hp in Hcalls. simpl in Hcalls. rewrite Hcalls in Hc.
  eexists. split; [exact Hc |].
  assert (Hout : ∀ a b c d e f, call_output (kernel_record a b c d e f) = f)
    by (by intros []).
  rewrite Hout.
  apply provisioner_ok in Hp.
  destruct output; [destruct Hp as (d & _ & -> & ->)
                   | destruct Hp as (d & _ & -> & ->)
                   | destruct Hp as (_ & -> & -> & _)];
    repeat split; apply lookup_ge_None; lia.
Qed.

(** C6 (as the code has it).  Each operation provisions the output first,
    then normalises the axis, then the parameter, and only then invokes the
    kernel.  Hence an error of the provisioner is the one raised whatever
    axis and parameter are; an axis error is raised in preference to a
    parameter error; and in all three cases no kernel is invoked. *)
Theorem public_op_order (op : public_op) (σ : state) (input : loc)
    (param : param_arg value) (n axis : Z) (output : output_arg) :
  let r := run op input param n axis output σ in
  (∀ σ1 e, provisioner op output input σ = (σ1, inl e) →
     r = (σ1, inl e) ∧ calls σ1 = calls σ)
  ∧ (∀ σ1 out rv, provisioner op output input σ = (σ1, inr (out, rv)) →
     let rank := ndim (objects σ1 !!! input) in
     (∀ e, _ni_support._check_axis axis rank = inl e →
        r = (σ1, inl e) ∧ calls σ1 = calls σ)
     ∧ (∀ ax e, _ni_support._check_axis axis rank = inr ax →
        _ni_support._normalize_sequence param rank = inl e →
        r = (σ1, inl e) ∧ calls σ1 = calls σ)
     ∧ (∀ ax ps, _ni_support._check_axis axis rank = inr ax →
        _ni_support._normalize_sequence param rank = inr ps →
        r = (_ ← invoke op input (as_contiguous_float64 ps) n ax out;
             mret rv) σ1)).
Proof.
  intros r. subst r. rewrite run_eq.
  pose proof (provisioner_calls op output input σ) as Hcalls.
  split.
  - intros σ1 e Hp. rewrite Hp in *. done.
  - intros σ1 out rv Hp. rewrite Hp in *. simpl in *.
    split; [| split].
    + intros e ->. done.
    + intros ax e -> ->. done.
    + intros ax ps -> ->.
      destruct op; unfold invoke, call_fourier_filter, call_fourier_shift;
        run_monad;
        first
          [ destruct (_nd_image_fourier_filter _ _ _ _ _ _ _) as [h [e' |]]
          | destruct (_nd_image_fourier_shift _ _ _ _ _ _) as [h [e' |]] ];
        reflexivity.
Qed.

(** C7.  For [-n ≤ a < n] axis normalisation yields [a] when [a ≥ 0] and
    [n + a] otherwise, a value of [[0, n)]; outside that range it fails with
    the out-of-range error. *)
Theorem check_axis_spec (a : Z) (n : nat) :
  (- Z.of_nat n ≤ a < Z.of_nat n →
     ∃ r, _ni_support._check_axis a n = inr r
       ∧ r = (if bool_decide (0 ≤ a) then a else Z.of_nat n + a)
       ∧ 0 ≤ r < Z.of_nat n)
  ∧ (¬ (- Z.of_nat n ≤ a < Z.of_nat n) →
     _ni_support._check_axis a n = inl AxisOutOfRange).
Proof.
  unfold _ni_support._check_axis. split; intros H.
  - rewrite bool_decide_eq_true_2 by assumption.
    eexists. split; [reflexivity |].
    repeat case_bool_decide; lia.
  - by rewrite bool_decide_eq_false_2.
Qed.

(** C8.  For every dimensionality (in particular every [ndim ≥ 1]) a
    scalar parameter [p] normalises to a sequence of length [ndim] all of
    whose elements are [p]; a sequence of another length fails with the
    length-mismatch error; a sequence of length [ndim] is returned as it
    is. *)
Theorem normalize_sequence_spec (rank : nat) :
  (∀ p : value, ∃ l,
     _ni_support._normalize_sequence (Scalar p) rank = inr l
     ∧ length l = rank
     ∧ Forall (λ x, x = p) l
     ∧ ∀ i, (i < rank)%nat → l !! i = Some p)
  ∧ (∀ ps : list value, length ps ≠ rank →
     _ni_support._normalize_sequence (PerAxis ps) rank = inl LengthMismatch)
  ∧ (∀ ps : list value, length ps = rank →
     _ni_support._normalize_sequence (PerAxis ps) rank = inr ps).
Proof.
  unfold _ni_support._normalize_sequence. repeat split.
  - intros p. exists (replicate rank p). repeat split.
    + apply length_replicate.
    + by apply Forall_replicate.
    + intros i Hi. by apply lookup_replicate_2.
  - intros ps H. by rewrite bool_decide_eq_true_2.
  - intros ps H. rewrite bool_decide_eq_false_2; [done |].
    intros Hn. by apply Hn.
Qed.

(** C9.  A pre-allocated [output] of the input's shape is accepted by both
    provisioners whatever its dtype [d] is: neither can raise the
    unsupported-type error on this branch, and once axis and parameter are
    accepted the kernel is invoked on that very buffer, its dtype still
    [d]. *)
Theorem preallocated_dtype_unchecked (op : public_op) (σ : state)
    (input out : loc) (param : param_arg value) (n axis : Z) (d : dtype) :
  let inp := objects σ !!! input in
  let r := run op input param n axis (OutArray out) σ in
  dtype_ (objects σ !!! out) = d →
  shape (objects σ !!! out) = shape inp →
  _get_output_fourier (OutArray out) input σ = (σ, inr (out, None))
  ∧ _get_output_fourier_complex (OutArray out) input σ = (σ, inr (out, None))
  ∧ (∀ t, snd (provisioner op (OutArray t) input σ) ≠ inl unsupported_type)
  ∧ ∀ ax ps,
      _ni_support._check_axis axis (ndim inp) = inr ax →
      _ni_support._normalize_sequence param (ndim inp) = inr ps →
      ∃ c, calls (fst r) = calls σ ++ [c]
        ∧ call_output c = out
        ∧ c = kernel_record op input (as_contiguous_float64 ps) n ax out
        ∧ dtype_ (objects (fst (provisioner op (OutArray out) input σ))
                    !!! call_output c) = d
        ∧ let k := kernel op (objects σ) input (as_contiguous_float64 ps)
                     n ax out in
          r = (mk_state (fst k) (calls σ ++ [c]), outcome (snd k) None).
Proof.
  intros inp r Hd Hs. subst inp r.
  rewrite get_output_fourier_array, get_output_fourier_complex_array.
  rewrite bool_decide_eq_false_2 by (intros Hn; by apply Hn).
  repeat split.
  - intros t.
    assert (provisioner op (OutArray t) input σ =
            _get_output_fourier (OutArray t) input σ) as ->.
    { by destruct op. }
    rewrite get_output_fourier_array. by case_bool_decide.
  - intros ax ps Ha Hps. eexists. rewrite run_eq.
    assert (provisioner op (OutArray out) input σ = (σ, inr (out, None)))
      as ->.
    { destruct op; simpl;
        rewrite ?get_output_fourier_array,
          ?get_output_fourier_complex_array;
        by rewrite bool_decide_eq_false_2 by (intros Hn; by apply Hn). }
    simpl. rewrite Ha, Hps.
    assert (Hout : call_output
              (kernel_record op input (as_contiguous_float64 ps) n ax out)
              = out) by (by destruct op).
    split; [reflexivity | split; [exact Hout | split; [reflexivity |]]].
    split; [by rewrite Hout | reflexivity].
Qed.

(** C10.  Passing the input array itself as [output] is accepted: the
    shape check compares the array with itself, the provisioner returns the
    input as the output with nothing to return, and once axis and parameter
    are accepted the kernel is invoked with input and output the same
    object; the call then returns [None] unless the kernel itself raises. *)
Theorem output_aliasing_input (op : public_op) (σ : state) (input : loc)
    (param : param_arg value) (n axis : Z) :
  let inp := objects σ !!! input in
  let r := run op input param n axis (OutArray input) σ in
  provisioner op (OutArray input) input σ = (σ, inr (input, None))
  ∧ ∀ ax ps,
      _ni_support._check_axis axis (ndim inp) = inr ax →
      _ni_support._normalize_sequence param (ndim inp) = inr ps →
      let c := kernel_record op input (as_contiguous_float64 ps) n ax input in
      calls (fst r) = calls σ ++ [c]
      ∧ call_input c = input ∧ call_output c = input
      ∧ let k := kernel op (objects σ) input (as_contiguous_float64 ps)
                   n ax input in
        r = (mk_state (fst k) (calls σ ++ [c]), outcome (snd k) None).
Proof.
  intros inp r. subst inp r.
  assert (Hp : provisioner op (OutArray input) input σ =
               (σ, inr (input, None))).
  { destruct op; simpl;
      rewrite ?get_output_fourier_array, ?get_output_fourier_complex_array;
      by rewrite bool_decide_eq_false_2 by (intros Hn; by apply Hn). }
  split; [exact Hp |].
  intros ax ps Ha Hps c. subst c. rewrite run_eq, Hp. simpl.
  rewrite Ha, Hps.
  repeat split; by destruct op.
Qed.

(** ** Further properties of the provisioners *)

Lemma provisioner_none op σ input :
  provisioner op OutNone input σ =
    (with_new σ (zeros zero (shape (objects σ !!! input))
                   (default_for op (dtype_ (objects σ !!! input)))),
     inr (length (objects σ), Some (length (objects σ)))).
Proof.
  destruct op; simpl;
    auto using get_output_fourier_none, get_output_fourier_complex_none.
Qed.

Lemma provisioner_array op σ input out :
  provisioner op (OutArray out) input σ =
    if bool_decide (shape (objects σ !!! out) ≠ shape (objects σ !!! input))
    then (σ, inl shape_mismatch) else (σ, inr (out, None)).
Proof.
  destruct op; simpl;
    auto using get_output_fourier_array, get_output_fourier_complex_array.
Qed.

Lemma provisioner_type op σ input t :
  provisioner op (OutType t) input σ =
    match t with
    | NumpyType ty =>
        if bool_decide (ty ∈ allowed op)
        then (with_new σ (zeros zero (shape (objects σ !!! input))
                            (dtype_of ty)),
              inr (length (objects σ), Some (length (objects σ))))
        else (σ, inl unsupported_type)
    | PyClass _ => (σ, inl unsupported_type)
    end.
Proof.
  assert (Hreal : ∀ ty, NumpyType ty ∈
            [NumpyType complex64; NumpyType complex128;
             NumpyType float32; NumpyType float64]
            ↔ ty ∈ [complex64; complex128; float32; float64]).
  { intros ty. rewrite accepted_real. split.
    - by intros (ty' & [= <-] & H).
    - eauto. }
  assert (Hcplx : ∀ ty, NumpyType ty ∈
            [NumpyType complex64; NumpyType complex128]
            ↔ ty ∈ [complex64; complex128]).
  { intros ty. rewrite accepted_complex. split.
    - by intros (ty' & [= <-] & H).
    - eauto. }
  destruct t as [ty | name].
  - destruct op; simpl; case_bool_decide as H;
      first [ by apply get_output_fourier_type_ok
            | by apply get_output_fourier_complex_type_ok
            | apply get_output_fourier_type_bad; by rewrite Hreal
            | apply get_output_fourier_complex_type_bad; by rewrite Hcplx ].
  - destruct op; simpl;
      first [ apply get_output_fourier_type_bad
            | apply get_output_fourier_complex_type_bad ];
      rewrite ?accepted_real, ?accepted_complex; by intros (ty & [=] & _).
Qed.

Lemma default_for_allowed op d : type (default_for op d) ∈ allowed op.
Proof.
  destruct op; unfold default_for, default_dtype, default_dtype_complex,
    allowed; case_bool_decide as H; simpl;
    rewrite ?elem_of_cons in *; tauto.
Qed.

Lemma default_for_keeps op d :
  type (default_for op d) = type d ↔ type d ∈ allowed op.
Proof.
  split.
  - intros <-. apply default_for_allowed.
  - destruct op; unfold default_for, default_dtype, default_dtype_complex,
      allowed; case_bool_decide as H; simpl; try done;
      rewrite !elem_of_cons, elem_of_nil in *; intros Hin;
      try (exfalso; tauto); destruct Hin as [? | [? | [? | [? | []]]]];
      try done; exfalso; tauto.
Qed.

(** The heap after an allocation, read at any location. *)
Lemma with_new_lookup σ a l :
  objects (with_new σ a) !!! l =
    if decide (l = length (objects σ)) then a else objects σ !!! l.
Proof.
  unfold with_new; simpl. case_decide as Hl.
  - subst l. rewrite lookup_total_app_r by lia.
    by rewrite Nat.sub_diag.
  - destruct (decide (l < length (objects σ))%nat).
    + by rewrite lookup_total_app_l.
    + rewrite !list_lookup_total_alt.
      rewrite !lookup_ge_None_2; [done | lia |].
      rewrite length_app. simpl. lia.
Qed.

(** Whatever a provisioner allocates has the input's shape, so the input
    reads with the same shape before and after. *)
Lemma provisioner_input_shape op output input σ σ1 out rv :
  provisioner op output input σ = (σ1, inr (out, rv)) →
  shape (objects σ1 !!! input) = shape (objects σ !!! input)
  ∧ shape (objects σ1 !!! out) = shape (objects σ !!! input).
Proof.
  intros Hp. apply provisioner_ok in Hp.
  destruct output; [destruct Hp as (d & -> & -> & _)
                   | destruct Hp as (d & -> & -> & _)
                   | destruct Hp as (-> & -> & _ & Hs)];
    rewrite ?with_new_lookup; repeat case_decide; try done.
Qed.

Lemma provisioner_fail_state op output input σ σ1 e :
  provisioner op output input σ = (σ1, inl e) →
  σ1 = σ ∧ (e = unsupported_type ∨ e = shape_mismatch).
Proof.
  destruct output as [| t | l].
  - by rewrite provisioner_none.
  - rewrite provisioner_type. destruct t as [ty | name].
    + case_bool_decide; [done |]. intros [= <- <-]. auto.
    + intros [= <- <-]. auto.
  - rewrite provisioner_array. case_bool_decide; [| done].
    intros [= <- <-]. auto.
Qed.

Lemma provisioner_extends op output input σ :
  ∃ ext, objects (fst (provisioner op output input σ)) = objects σ ++ ext
    ∧ (length ext ≤ 1)%nat
    ∧ (∀ l, output = OutArray l → ext = []).
Proof.
  destruct (provisioner op output input σ) as [σ1 [e | [out rv]]] eqn:Hp.
  - apply provisioner_fail_state in Hp as [-> _].
    exists []. simpl. rewrite app_nil_r. split; [done | split; [lia | done]].
  - apply provisioner_ok in Hp.
    destruct output; [destruct Hp as (d & -> & _)
                     | destruct Hp as (d & -> & _)
                     | destruct Hp as (-> & _)]; simpl;
      first [ eexists [_]; split; [reflexivity | split; [simpl; lia | done]]
            | exists []; rewrite app_nil_r;
              split; [done | split; [simpl; lia | done]] ].
Qed.

Lemma provisioner_keeps op output input σ l a :
  objects σ !! l = Some a →
  objects (fst (provisioner op output input σ)) !! l = Some a.
Proof.
  destruct (provisioner_extends op output input σ) as (ext & -> & _).
  apply lookup_app_l_Some.
Qed.

Lemma check_axis_inr axis rank ax :
  _ni_support._check_axis axis rank = inr ax →
  0 ≤ ax < Z.of_nat rank ∧ (ax = axis ∨ ax = Z.of_nat rank + axis).
Proof.
  unfold _ni_support._check_axis.
  case_bool_decide as Hr; [| done].
  case_bool_decide as Hneg; intros [= <-]; lia.
Qed.

Lemma normalize_sequence_inr (param : param_arg value) rank ps :
  _ni_support._normalize_sequence param rank = inr ps →
  length ps = rank ∧ (∀ p, param = Scalar p → ps = replicate rank p)
  ∧ (∀ qs, param = PerAxis qs → ps = qs).
Proof.
  unfold _ni_support._normalize_sequence. destruct param as [p | qs].
  - intros [= <-]. rewrite length_replicate.
    split; [done | split; [by intros ? [= <-] | done]].
  - case_bool_decide as Hl; [done |]. intros [= <-].
    split; [exact Hl | split; [done | by intros ? [= <-]]].
Qed.

Lemma snoc_not_self {A} (l : list A) (x : A) : l ≠ l ++ [x].
Proof.
  intros H. apply (f_equal length) in H.
  rewrite length_app in H. simpl in H. lia.
Qed.


(** X2.  A provisioner never touches an object that exists and never
    invokes a kernel: the heap afterwards is the heap before followed by at
    most one new array.  When it succeeds, the output it settled on has
    the shape of the input. *)
Theorem provisioner_preserves_heap (op : public_op) (output : output_arg)
    (input : loc) (σ : state) :
  let r := provisioner op output input σ in
  calls (fst r) = calls σ
  ∧ (∃ ext, objects (fst r) = objects σ ++ ext ∧ (length ext ≤ 1)%nat)
  ∧ (∀ l a, objects σ !! l = Some a → objects (fst r) !! l = Some a)
  ∧ (∀ out rv, snd r = inr (out, rv) →
       shape (objects (fst r) !!! out) = shape (objects (fst r) !!! input)).
Proof.
  intros r. subst r.
  split; [apply provisioner_calls |].
  split; [| split].
  - destruct (provisioner_extends op output input σ) as (ext & H & Hl & _).
    eauto.
  - intros l a. apply provisioner_keeps.
  - intros out rv Hr.
    destruct (provisioner op output input σ) as [σ1 r] eqn:Hp.
    simpl in Hr. subst r. simpl.
    apply provisioner_input_shape in Hp as [-> ->]. done.
Qed.

(** X3.  An output array that a provisioner allocates itself (no array was
    passed) always has a scalar type of the operation's list: one of
    complex64, complex128, float32, float64 for the three real-mask filters
    and one of complex64, complex128 for the shift; it has the input's
    shape and is filled with the zero of that type. *)
Theorem allocated_dtype_allowed (op : public_op) (output : output_arg)
    (input : loc) (σ σ1 : state) (out : loc) (rv : option loc) :
  (∀ l, output ≠ OutArray l) →
  provisioner op output input σ = (σ1, inr (out, rv)) →
  ∃ a, objects σ1 !! out = Some a
    ∧ objects σ !! out = None
    ∧ type (dtype_ a) ∈ allowed op
    ∧ shape a = shape (objects σ !!! input)
    ∧ data a = replicate (size_of (shape a)) (zero (type (dtype_ a))).
Proof.
  intros Hno Hp.
  assert (Hd : ∃ d, type d ∈ allowed op
            ∧ σ1 = with_new σ (zeros zero (shape (objects σ !!! input)) d)
            ∧ out = length (objects σ)).
  { destruct output as [| t | l]; [| | by destruct (Hno l)].
    - rewrite provisioner_none in Hp. injection Hp as <- <- <-.
      eexists. split; [apply default_for_allowed | done].
    - rewrite provisioner_type in Hp. destruct t as [ty | name]; [| done].
      case_bool_decide as H; [| done]. injection Hp as <- <- <-.
      exists (dtype_of ty). done. }
  destruct Hd as (d & Hd & -> & ->).
  destruct (with_new_fresh σ (zeros zero (shape (objects σ !!! input)) d))
    as [Hfresh Hnew].
  eexists. split; [exact Hnew |]. done.
Qed.

(** X4.  With [output] absent the allocated array has the scalar type of
    the input exactly when the input's scalar type is in the operation's
    list; every other input type is replaced (by float64, or by complex128
    for the shift). *)
Theorem absent_output_keeps_type (op : public_op) (input : loc) (σ : state) :
  let r := provisioner op OutNone input σ in
  let out := objects (fst r) !!! length (objects σ) in
  let inp := objects σ !!! input in
  (type (dtype_ out) = type (dtype_ inp) ↔ type (dtype_ inp) ∈ allowed op)
  ∧ (type (dtype_ inp) ∉ allowed op →
     dtype_ out = dtype_of (match op with
                            | op_shift => complex128
                            | _ => float64
                            end)).
Proof.
  intros r out inp. subst r out inp. rewrite provisioner_none.
  simpl fst. rewrite with_new_lookup. case_decide; [| done]. simpl.
  split; [apply default_for_keeps |].
  intros Hn.
  destruct op; unfold default_for, default_dtype, default_dtype_complex;
    case_bool_decide as Hk; try done; exfalso; apply Hn; revert Hk;
    unfold allowed; rewrite !elem_of_cons; tauto.
Qed.

(** X5.  Provisioning twice for the same live input with [output] absent
    gives two different locations holding equal arrays; the second call
    leaves the first array as it was. *)
Theorem provisioner_twice (op : public_op) (input : loc) (σ : state) :
  (input < length (objects σ))%nat →
  ∃ σ1 σ2 l1 l2 a,
    provisioner op OutNone input σ = (σ1, inr (l1, Some l1))
    ∧ provisioner op OutNone input σ1 = (σ2, inr (l2, Some l2))
    ∧ l1 ≠ l2
    ∧ objects σ1 !! l1 = Some a
    ∧ objects σ2 !! l1 = Some a
    ∧ objects σ2 !! l2 = Some a.
Proof.
  intros Hlive.
  set (a := zeros zero (shape (objects σ !!! input))
              (default_for op (dtype_ (objects σ !!! input)))).
  exists (with_new σ a), (with_new (with_new σ a) a),
    (length (objects σ)), (S (length (objects σ))), a.
  split; [apply provisioner_none |].
  assert (Hin : objects (with_new σ a) !!! input = objects σ !!! input)
    by (by apply with_new_old).
  assert (Hlen : length (objects (with_new σ a)) = S (length (objects σ))).
  { unfold with_new; simpl. rewrite length_app. simpl. lia. }
  split.
  { rewrite provisioner_none, Hin, Hlen. done. }
  split; [lia |].
  destruct (with_new_fresh σ a) as [_ H1].
  destruct (with_new_fresh (with_new σ a) a) as [_ H2].
  rewrite Hlen in H2.
  split; [exact H1 | split; [| exact H2]].
  unfold with_new at 1; simpl. by apply lookup_app_l_Some.
Qed.

(** X6.  The output a provisioner has settled on, in particular an array it
    has just allocated, can be handed back as [output] for the same input:
    both provisioners then accept it, change nothing, and settle on it as
    the in-place output. *)
Theorem allocated_output_reusable (op op' : public_op) (output : output_arg)
    (input : loc) (σ σ1 : state) (out : loc) (rv : option loc) :
  provisioner op output input σ = (σ1, inr (out, rv)) →
  provisioner op' (OutArray out) input σ1 = (σ1, inr (out, None)).
Proof.
  intros [Hin Hout]%provisioner_input_shape.
  rewrite provisioner_array.
  rewrite bool_decide_eq_false_2; [done |].
  intros Hn. apply Hn. by rewrite Hin, Hout.
Qed.

(** X7.  When [output] is a type object or an array the provisioner looks
    at the input's shape only: two inputs of one shape, whatever their
    dtypes, give the same result. *)
Theorem provisioner_reads_shape_only (op : public_op) (output : output_arg)
    (input input' : loc) (σ : state) :
  output ≠ OutNone →
  shape (objects σ !!! input) = shape (objects σ !!! input') →
  provisioner op output input σ = provisioner op output input' σ.
Proof.
  intros Hno Hs. destruct output as [| t | l]; [done | |].
  - by rewrite !provisioner_type, Hs.
  - by rewrite !provisioner_array, Hs.
Qed.

(** ** Further properties of the public operations *)


(** X9.  A call invokes a kernel at most once.  If it invokes none it has
    raised, and every array that existed before the call is still there
    unchanged; if it invokes one, that is on the caller's input and with
    the caller's [n]. *)
Theorem kernel_at_most_once (op : public_op) (input : loc)
    (param : param_arg value) (n axis : Z) (output : output_arg)
    (σ : state) :
  let r := run op input param n axis output σ in
  (calls (fst r) = calls σ
   ∧ (∃ e, snd r = inl e)
   ∧ ∀ l a, objects σ !! l = Some a → objects (fst r) !! l = Some a)
  ∨ (∃ c, calls (fst r) = calls σ ++ [c]
       ∧ call_input c = input ∧ call_n c = n).
Proof.
  intros r. subst r. rewrite run_eq.
  pose proof (provisioner_calls op output input σ) as Hcalls.
  pose proof (provisioner_keeps op output input σ) as Hkeep.
  destruct (provisioner op output input σ) as [σ1 [e1 | [out rv]]].
  - left. simpl in *. eauto.
  - simpl in *.
    destruct (_ni_support._check_axis _ _) as [e1 | ax];
      [left; simpl; eauto |].
    destruct (_ni_support._normalize_sequence _ _) as [e1 | ps];
      [left; simpl; eauto |].
    right. eexists. simpl. rewrite Hcalls.
    split; [reflexivity |]. by destruct op.
Qed.

(** X10.  Validation comes after allocation: when the provisioner has
    allocated the output (no array was passed) and the axis, or else the
    parameter, is then refused, the call raises that error without invoking
    a kernel, but the heap has already grown by the new array. *)
Theorem allocation_precedes_validation (op : public_op) (input : loc)
    (param : param_arg value) (n axis : Z) (output : output_arg)
    (σ σ1 : state) (out : loc) (rv : option loc) (e : exn) :
  let rank := ndim (objects σ !!! input) in
  (∀ l, output ≠ OutArray l) →
  provisioner op output input σ = (σ1, inr (out, rv)) →
  (_ni_support._check_axis axis rank = inl e
   ∨ ∃ ax, _ni_support._check_axis axis rank = inr ax
        ∧ _ni_support._normalize_sequence param rank = inl e) →
  run op input param n axis output σ = (σ1, inl e)
  ∧ calls σ1 = calls σ
  ∧ length (objects σ1) = S (length (objects σ))
  ∧ is_Some (objects σ1 !! out) ∧ objects σ !! out = None.
Proof.
  intros rank Hno Hp He. subst rank. rewrite run_eq.
  pose proof (provisioner_calls op output input σ) as Hcalls.
  rewrite Hp in *. simpl in Hcalls.
  pose proof Hp as [Hin _]%provisioner_input_shape.
  unfold ndim in *. simpl. rewrite Hin.
  split.
  { destruct He as [-> | (ax & -> & ->)]; done. }
  split; [done |].
  apply provisioner_ok in Hp.
  assert (∃ d, σ1 = with_new σ (zeros zero (shape (objects σ !!! input)) d)
               ∧ out = length (objects σ)) as (d & -> & ->).
  { destruct output as [| t | l]; [| | by destruct (Hno l)];
      destruct Hp as (d & ? & ? & _); eauto. }
  destruct (with_new_fresh σ (zeros zero (shape (objects σ !!! input)) d))
    as [Hfresh Hnew].
  split; [| split].
  - unfold with_new; simpl. rewrite length_app. simpl. lia.
  - eexists. exact Hnew.
  - exact Hfresh.
Qed.

(** X11.  What a kernel is handed: the caller's input and [n]; as
    parameters a contiguous one-dimensional float64 array with one entry
    per axis of the input (a scalar parameter repeated, a sequence entry by
    entry, each converted to float64); the normalised axis, within
    [[0, ndim)]; and as output the caller's array, or else the location
    that was free when the call began. *)
Theorem kernel_arguments (op : public_op) (input : loc)
    (param : param_arg value) (n axis : Z) (output : output_arg)
    (σ : state) (c : kernel_call) :
  let r := run op input param n axis output σ in
  let rank := ndim (objects σ !!! input) in
  calls (fst r) = calls σ ++ [c] →
  call_input c = input ∧ call_n c = n
  ∧ contiguous (call_params c) = true
  ∧ dtype_ (call_params c) = dtype_of float64
  ∧ shape (call_params c) = [rank]
  ∧ data (call_params c) =
      cast float64 <$> match param with
                       | Scalar p => replicate rank p
                       | PerAxis ps => ps
                       end
  ∧ 0 ≤ call_axis c < Z.of_nat rank
  ∧ (call_axis c = axis ∨ call_axis c = Z.of_nat rank + axis)
  ∧ call_output c = match output with
                    | OutArray l => l
                    | _ => length (objects σ)
                    end
  ∧ ∃ p ax out, c = kernel_record op input p n ax out.
Proof.
  intros r rank. subst r rank. rewrite run_eq.
  pose proof (provisioner_calls op output input σ) as Hcalls.
  destruct (provisioner op output input σ) as [σ1 [e1 | [out rv]]] eqn:Hp;
    simpl in Hcalls.
  { simpl. rewrite Hcalls. by intros ?%snoc_not_self. }
  pose proof Hp as [Hin _]%provisioner_input_shape.
  unfold ndim in *. simpl. rewrite Hin.
  destruct (_ni_support._check_axis _ _) as [e1 | ax] eqn:Ha;
    [simpl; rewrite Hcalls; by intros ?%snoc_not_self |].
  destruct (_ni_support._normalize_sequence _ _) as [e1 | ps] eqn:Hps;
    [simpl; rewrite Hcalls; by intros ?%snoc_not_self |].
  simpl. rewrite Hcalls. intros [_ [= <-]]%app_inj_tail.
  apply check_axis_inr in Ha as [Hrange Hax].
  apply normalize_sequence_inr in Hps as (Hlen & Hscalar & Hseq).
  assert (Hout : out = match output with
                       | OutArray l => l
                       | _ => length (objects σ)
                       end).
  { apply provisioner_ok in Hp.
    destruct output; [destruct Hp as (d & _ & -> & _)
                     | destruct Hp as (d & _ & -> & _)
                     | destruct Hp as (_ & -> & _)]; done. }
  assert (Hdata : ps = match param with
                       | Scalar p => replicate (length
                                       (shape (objects σ !!! input))) p
                       | PerAxis qs => qs
                       end).
  { destruct param; [by apply Hscalar | by apply Hseq]. }
  rewrite <- Hdata, <- Hout.
  destruct op; simpl; rewrite Hlen; eauto 15.
Qed.

(** X12.  The heap a kernel starts from is the caller's heap, followed by
    the one array the provisioner allocated when no array was passed; in
    it the output has the shape of the input.  The heap the call ends
    with is the one the kernel leaves, and the call raises exactly what the
    kernel raises. *)
Theorem kernel_entry_heap (op : public_op) (input : loc)
    (param : param_arg value) (n axis : Z) (output : output_arg)
    (σ : state) (c : kernel_call) :
  let r := run op input param n axis output σ in
  calls (fst r) = calls σ ++ [c] →
  ∃ ext,
    let h := objects σ ++ ext in
    let k := kernel op h input (call_params c) n (call_axis c)
               (call_output c) in
    (length ext ≤ 1)%nat
    ∧ (∀ l, output = OutArray l → ext = [])
    ∧ shape (h !!! call_output c) = shape (h !!! input)
    ∧ objects (fst r) = fst k
    ∧ (∀ e, snd r = inl e ↔ snd k = Some e).
Proof.
  intros r. subst r. rewrite run_eq.
  pose proof (provisioner_calls op output input σ) as Hcalls.
  destruct (provisioner_extends op output input σ) as (ext & Hext & Hl & Ha).
  destruct (provisioner op output input σ) as [σ1 [e1 | [out rv]]] eqn:Hp;
    simpl in Hcalls, Hext.
  { simpl. rewrite Hcalls. by intros ?%snoc_not_self. }
  pose proof Hp as [Hin Hout]%provisioner_input_shape.
  simpl.
  destruct (_ni_support._check_axis _ _) as [e1 | ax];
    [simpl; rewrite Hcalls; by intros ?%snoc_not_self |].
  destruct (_ni_support._normalize_sequence _ _) as [e1 | ps];
    [simpl; rewrite Hcalls; by intros ?%snoc_not_self |].
  simpl. rewrite Hcalls. intros [_ [= <-]]%app_inj_tail.
  exists ext. rewrite <- Hext.
  assert (Hrec : ∀ p, call_params (kernel_record op input p n ax out) = p
                      ∧ call_axis (kernel_record op input p n ax out) = ax
                      ∧ call_output (kernel_record op input p n ax out)
                        = out) by (by destruct op).
  destruct (Hrec (as_contiguous_float64 ps)) as (-> & -> & ->).
  split; [done | split; [done | split; [by rewrite Hin, Hout |]]].
  split; [done |].
  intros e.
  destruct (kernel _ _ _ _ _ _ _) as [h [e1 |]]; simpl;
    split; intros [=]; by subst.
Qed.

(** X13.  [fourier_gaussian], [fourier_uniform] and [fourier_ellipsoid]
    are one front end: on the same arguments they fail before the kernel
    with the same error and state, or else hand their kernel the same
    input, parameters, [n], axis and output. *)
Theorem real_filters_agree (op op' : public_op) (input : loc)
    (param : param_arg value) (n axis : Z) (output : output_arg)
    (σ : state) :
  op ≠ op_shift → op' ≠ op_shift →
  let r := run op input param n axis output σ in
  let r' := run op' input param n axis output σ in
  (calls (fst r) = calls σ → r' = r)
  ∧ (∀ c, calls (fst r) = calls σ ++ [c] →
       ∃ c', calls (fst r') = calls σ ++ [c']
         ∧ call_input c' = call_input c
         ∧ call_params c' = call_params c
         ∧ call_n c' = call_n c
         ∧ call_axis c' = call_axis c
         ∧ call_output c' = call_output c).
Proof.
  intros Hop Hop' r r'. subst r r'. rewrite !run_eq.
  assert (Hp : provisioner op' = provisioner op)
    by (by destruct op, op').
  rewrite Hp.
  pose proof (provisioner_calls op output input σ) as Hcalls.
  destruct (provisioner op output input σ) as [σ1 [e1 | [out rv]]];
    simpl in Hcalls.
  { simpl. split; [done |]. intros c. rewrite Hcalls.
    by intros ?%snoc_not_self. }
  simpl.
  destruct (_ni_support._check_axis _ _) as [e1 | ax].
  { simpl. split; [done |]. intros c. rewrite Hcalls.
    by intros ?%snoc_not_self. }
  destruct (_ni_support._normalize_sequence _ _) as [e1 | ps].
  { simpl. split; [done |]. intros c. rewrite Hcalls.
    by intros ?%snoc_not_self. }
  simpl. rewrite Hcalls. split.
  - by intros ?%eq_sym%snoc_not_self.
  - intros c [_ [= <-]]%app_inj_tail. eexists. split; [reflexivity |].
    by destruct op, op'.
Qed.

End fourier.

(** ** The theorems at work on sample calls *)

Abbreviation sample_run :=
  (run Z sample.zero sample.cast sample.fourier_filter sample.fourier_shift).
Abbreviation sample_state := (mk_state Z).

Ltac by_decide := apply (bool_decide_unpack _); vm_compute; exact I.

(** [float32] is kept by the shift provisioner's sibling only: a float32
    input gets a complex128 output from [_get_output_fourier_complex]; the
    type object [float32] is refused and [complex64] accepted. *)
Lemma get_output_fourier_complex_spec_witness :
  let σ := sample_state [sample.ones_8_complex; sample.ones_8_int] [] in
  _get_output_fourier_complex Z sample.zero (OutType (NumpyType complex64))
    1%nat σ =
    (with_new Z σ (zeros sample.zero [8%nat] (dtype_of complex64)),
     inr (2%nat, Some 2%nat))
  ∧ _get_output_fourier_complex Z sample.zero (OutType (NumpyType float32))
      1%nat σ = (σ, inl unsupported_type)
  ∧ _get_output_fourier_complex Z sample.zero OutNone 0%nat σ =
    _get_output_fourier Z sample.zero OutNone 0%nat σ.
Proof.
  intros σ.
  destruct (get_output_fourier_complex_spec Z sample.zero sample.cast σ 1%nat)
    as (_ & Hok & Hbad & _).
  destruct (get_output_fourier_complex_spec Z sample.zero sample.cast σ 0%nat)
    as (_ & _ & _ & _ & Hsame & _).
  split; [| split].
  - apply Hok. vm_compute. by left.
  - apply Hbad. by_decide.
  - apply Hsame. vm_compute. by right; left.
Defined.

(** [output=numpy.int32] is refused, [output=numpy.float32] accepted. *)
Lemma get_output_fourier_token_witness :
  let σ := sample_state [sample.ones_4_4] [] in
  _get_output_fourier Z sample.zero (OutType (NumpyType int32)) 0%nat σ =
    (σ, inl unsupported_type)
  ∧ ∃ ty, NumpyType float32 = NumpyType ty
      ∧ _get_output_fourier Z sample.zero (OutType (NumpyType float32))
          0%nat σ =
        (with_new Z σ (zeros sample.zero [4; 4]%nat (dtype_of ty)),
         inr (1%nat, Some 1%nat)).
Proof.
  intros σ. split.
  - apply (get_output_fourier_token Z sample.zero σ 0%nat (NumpyType int32)).
    by_decide.
  - destruct (get_output_fourier_token Z sample.zero σ 0%nat
                (NumpyType float32)) as (_ & _ & H).
    destruct H as (ty & Hty & Hrun & _).
    + by_decide.
    + exists ty. split; [exact Hty | exact Hrun].
Defined.

(** Input of shape (4,4): an output of shape (4,5) is refused by every
    operation and nothing happens; one of shape (4,4) reaches the kernel. *)
Lemma preallocated_shape_check_witness :
  let σ := sample_state
             [sample.ones_4_4; sample.zeros_4_5; sample.zeros_4_4] [] in
  sample_run op_ellipsoid 0%nat (Scalar 3) (-1) (-1) (OutArray 1%nat) σ =
    (σ, inl shape_mismatch)
  ∧ snd (sample_run op_ellipsoid 0%nat (Scalar 3) (-1) (-1)
           (OutArray 2%nat) σ) = inr None.
Proof.
  intros σ. split.
  - apply (preallocated_shape_check Z sample.zero sample.cast
             sample.fourier_filter sample.fourier_shift op_ellipsoid σ
             0%nat 1%nat (Scalar 3) (-1) (-1)).
    by_decide.
  - destruct (preallocated_shape_check Z sample.zero sample.cast
                sample.fourier_filter sample.fourier_shift op_ellipsoid σ
                0%nat 2%nat (Scalar 3) (-1) (-1)) as [_ H].
    destruct H as (_ & _ & H); [reflexivity |].
    destruct (H 1 [3; 3]) as [_ [Hr | (e & He & _)]];
      [reflexivity | reflexivity | exact Hr | discriminate He].
Defined.

(** [fourier_gaussian(ones((4,4)), sigma=1.0)] returns the array it made;
    with [output=zeros((4,4))] it returns [None]. *)
Lemma return_value_spec_witness :
  let σ := sample_state [sample.ones_4_4; sample.zeros_4_4] [] in
  let r1 := sample_run op_gaussian 0%nat (Scalar 1) (-1) (-1) OutNone σ in
  let r2 := sample_run op_gaussian 0%nat (Scalar 1) (-1) (-1)
              (OutArray 1%nat) σ in
  (∃ c, calls Z (fst r1) = [c] ∧ snd r1 = inr (Some 2%nat)
        ∧ call_output Z c = 2%nat)
  ∧ (∃ c, calls Z (fst r2) = [c] ∧ snd r2 = inr None
        ∧ call_output Z c = 1%nat).
Proof.
  intros σ r1 r2. split.
  - destruct (return_value_spec Z sample.zero sample.cast
                sample.fourier_filter sample.fourier_shift op_gaussian σ
                (fst r1) 0%nat (Scalar 1) (-1) (-1) OutNone (Some 2%nat))
      as (c & Hc & _ & _ & Hout); [by vm_compute |].
    exists c. split; [exact Hc | split; [by vm_compute | exact Hout]].
  - destruct (return_value_spec Z sample.zero sample.cast
                sample.fourier_filter sample.fourier_shift op_gaussian σ
                (fst r2) 0%nat (Scalar 1) (-1) (-1) (OutArray 1%nat) None)
      as (c & Hc & _ & Hout); [by vm_compute |].
    exists c. split; [exact Hc | split; [by vm_compute | exact Hout]].
Defined.

(** C6 (as the spec words it) fails: with an output of the wrong shape, or
    a refused type object, together with an axis out of range and a
    parameter of the wrong length, every operation raises the provisioner's
    error, not a normalisation error. *)
Lemma normalization_error_not_first :
  let σ := sample_state [sample.ones_4_4; sample.zeros_4_5] [] in
  _ni_support._check_axis 7 (ndim sample.ones_4_4) = inl AxisOutOfRange
  ∧ _ni_support._normalize_sequence (PerAxis [1; 2; 3])
      (ndim sample.ones_4_4) = inl LengthMismatch
  ∧ Forall (λ op,
      sample_run op 0%nat (PerAxis [1; 2; 3]) (-1) 7 (OutArray 1%nat) σ =
        (σ, inl shape_mismatch)
      ∧ sample_run op 0%nat (PerAxis [1; 2; 3]) (-1) 7
          (OutType (NumpyType int32)) σ = (σ, inl unsupported_type))
      [op_gaussian; op_uniform; op_ellipsoid; op_shift]
  ∧ shape_mismatch ≠ AxisOutOfRange ∧ shape_mismatch ≠ LengthMismatch
  ∧ unsupported_type ≠ AxisOutOfRange ∧ unsupported_type ≠ LengthMismatch.
Proof.
  intros σ.
  split; [reflexivity | split; [reflexivity | split]].
  - repeat constructor.
  - repeat split; discriminate.
Qed.

(** The same call as above, read through the order of the code. *)
Lemma public_op_order_witness :
  let σ := sample_state [sample.ones_4_4; sample.zeros_4_5] [] in
  sample_run op_uniform 0%nat (PerAxis [1; 2; 3]) (-1) 7 (OutArray 1%nat) σ
    = (σ, inl shape_mismatch)
  ∧ sample_run op_uniform 0%nat (PerAxis [1; 2; 3]) (-1) 7 (OutArray 0%nat) σ
    = (σ, inl AxisOutOfRange)
  ∧ sample_run op_uniform 0%nat (PerAxis [1; 2; 3]) (-1) 1 (OutArray 0%nat) σ
    = (σ, inl LengthMismatch).
Proof.
  intros σ. split; [| split].
  - apply (public_op_order Z sample.zero sample.cast sample.fourier_filter
             sample.fourier_shift op_uniform σ 0%nat (PerAxis [1; 2; 3])
             (-1) 7 (OutArray 1%nat)).
    reflexivity.
  - destruct (public_op_order Z sample.zero sample.cast sample.fourier_filter
                sample.fourier_shift op_uniform σ 0%nat (PerAxis [1; 2; 3])
                (-1) 7 (OutArray 0%nat)) as [_ H].
    destruct (H σ 0%nat None eq_refl) as (Ha & _).
    apply Ha. reflexivity.
  - destruct (public_op_order Z sample.zero sample.cast sample.fourier_filter
                sample.fourier_shift op_uniform σ 0%nat (PerAxis [1; 2; 3])
                (-1) 1 (OutArray 0%nat)) as [_ H].
    destruct (H σ 0%nat None eq_refl) as (_ & Hp & _).
    apply (Hp 1); reflexivity.
Defined.

(** [axis=-1] on a two-dimensional input is axis 1; [axis=2] is refused. *)
Lemma check_axis_spec_witness :
  (∃ r, _ni_support._check_axis (-1) 2 = inr r ∧ r = 1 ∧ 0 ≤ r < 2)
  ∧ _ni_support._check_axis 2 2 = inl AxisOutOfRange.
Proof.
  split.
  - destruct (check_axis_spec (-1) 2) as [H _].
    destruct H as (r & Hr & Hv & Hb); [lia |].
    exists r. split; [exact Hr | split; [exact Hv | exact Hb]].
  - apply (check_axis_spec 2 2). simpl. lia.
Defined.

(** [sigma=5] on three axes is [5, 5, 5]; a pair for three axes is
    refused. *)
Lemma normalize_sequence_spec_witness :
  (∃ l, _ni_support._normalize_sequence (Scalar 5) 3 = inr l
        ∧ length l = 3%nat ∧ l !! 2%nat = Some 5)
  ∧ _ni_support._normalize_sequence (PerAxis [1; 2]) 3 = inl LengthMismatch
  ∧ _ni_support._normalize_sequence (PerAxis [1; 2; 3]) 3 = inr [1; 2; 3].
Proof.
  destruct (normalize_sequence_spec Z 3) as (Hs & Hbad & Hok).
  split; [| split].
  - destruct (Hs 5) as (l & Hl & Hlen & _ & Hi).
    exists l. split; [exact Hl | split; [exact Hlen | apply Hi; lia]].
  - apply Hbad. simpl. lia.
  - apply Hok. reflexivity.
Defined.

(** A float64 buffer handed to [fourier_shift] with a complex128 input is
    accepted and reaches the kernel. *)
Lemma preallocated_dtype_unchecked_witness :
  let σ := sample_state [sample.ones_8_complex; sample.zeros_8_float] [] in
  let r := sample_run op_shift 0%nat (Scalar 5) (-1) (-1) (OutArray 1%nat) σ in
  _get_output_fourier_complex Z sample.zero (OutArray 1%nat) 0%nat σ =
    (σ, inr (1%nat, None))
  ∧ _get_output_fourier_complex Z sample.zero (OutType (NumpyType float64))
      0%nat σ = (σ, inl unsupported_type)
  ∧ ∃ c, calls Z (fst r) = [c] ∧ call_output Z c = 1%nat.
Proof.
  intros σ r.
  destruct (preallocated_dtype_unchecked Z sample.zero sample.cast
              sample.fourier_filter sample.fourier_shift op_shift σ
              0%nat 1%nat (Scalar 5) (-1) (-1) (dtype_of float64)
              eq_refl eq_refl) as (_ & Hc & _ & Hk).
  split; [exact Hc | split; [reflexivity |]].
  destruct (Hk 0 [5]) as (c & Hcalls & Hout & _); [reflexivity .. |].
  exists c. split; [exact Hcalls | exact Hout].
Defined.

(** [fourier_uniform(a, 3, output=a)] runs the kernel on [a] in place. *)
Lemma output_aliasing_input_witness :
  let σ := sample_state [sample.ones_4_4] [] in
  let r := sample_run op_uniform 0%nat (Scalar 3) (-1) (-1) (OutArray 0%nat) σ in
  snd r = inr None
  ∧ calls Z (fst r) =
      [FourierFilter Z 0%nat
         (as_contiguous_float64 Z sample.cast [3; 3]) (-1) 1 0%nat 1].
Proof.
  intros σ r.
  destruct (output_aliasing_input Z sample.zero sample.cast
              sample.fourier_filter sample.fourier_shift op_uniform σ
              0%nat (Scalar 3) (-1) (-1)) as [_ H].
  destruct (H 1 [3; 3] eq_refl eq_refl) as (Hcalls & _ & _ & Hr).
  split; [| exact Hcalls].
  exact (f_equal snd Hr).
Defined.

(** ** The further properties on sample calls *)

Abbreviation sample_provisioner := (provisioner Z sample.zero).


(** An int32 input gets a float64 output of its shape. *)
Lemma allocated_dtype_allowed_witness :
  let σ := sample_state [sample.ones_8_int] [] in
  let σ1 := fst (sample_provisioner op_gaussian OutNone 0%nat σ) in
  ∃ a, objects Z σ1 !! 1%nat = Some a
    ∧ objects Z σ !! 1%nat = None
    ∧ type (dtype_ a) ∈ allowed op_gaussian
    ∧ shape a = [8%nat]
    ∧ data a = replicate (size_of (shape a)) (sample.zero (type (dtype_ a))).
Proof.
  intros σ σ1.
  refine (allocated_dtype_allowed Z sample.zero op_gaussian OutNone 0%nat
            σ σ1 1%nat (Some 1%nat) _ eq_refl).
  intros l. discriminate.
Defined.

(** Two provisionings for one complex input. *)
Lemma provisioner_twice_witness :
  let σ := sample_state [sample.ones_8_complex] [] in
  ∃ σ1 σ2 l1 l2 a,
    sample_provisioner op_shift OutNone 0%nat σ = (σ1, inr (l1, Some l1))
    ∧ sample_provisioner op_shift OutNone 0%nat σ1 = (σ2, inr (l2, Some l2))
    ∧ l1 ≠ l2
    ∧ objects Z σ1 !! l1 = Some a
    ∧ objects Z σ2 !! l1 = Some a
    ∧ objects Z σ2 !! l2 = Some a.
Proof.
  intros σ.
  refine (provisioner_twice Z sample.zero op_shift 0%nat σ _).
  simpl. lia.
Defined.

(** The float64 array allocated for [fourier_gaussian] is accepted as the
    output of [fourier_shift]. *)
Lemma allocated_output_reusable_witness :
  let σ := sample_state [sample.ones_4_4] [] in
  let σ1 := fst (sample_provisioner op_gaussian OutNone 0%nat σ) in
  sample_provisioner op_shift (OutArray 1%nat) 0%nat σ1 =
    (σ1, inr (1%nat, None)).
Proof.
  intros σ σ1.
  exact (allocated_output_reusable Z sample.zero op_gaussian op_shift OutNone
           0%nat σ σ1 1%nat (Some 1%nat) eq_refl).
Defined.

(** A complex128 and an int32 vector of the same length are
    interchangeable as inputs once a type object is given. *)
Lemma provisioner_reads_shape_only_witness :
  let σ := sample_state [sample.ones_8_complex; sample.ones_8_int] [] in
  sample_provisioner op_shift (OutType (NumpyType complex64)) 0%nat σ =
  sample_provisioner op_shift (OutType (NumpyType complex64)) 1%nat σ.
Proof.
  intros σ.
  refine (provisioner_reads_shape_only Z sample.zero op_shift
            (OutType (NumpyType complex64)) 0%nat 1%nat σ _ eq_refl).
  discriminate.
Defined.


(** [fourier_gaussian(ones((4,4)), 1.0, axis=7)] raises, yet the output
    array is already on the heap. *)
Lemma allocation_precedes_validation_witness :
  let σ := sample_state [sample.ones_4_4] [] in
  let σ1 := fst (sample_provisioner op_gaussian OutNone 0%nat σ) in
  sample_run op_gaussian 0%nat (Scalar 1) (-1) 7 OutNone σ =
    (σ1, inl AxisOutOfRange)
  ∧ calls Z σ1 = calls Z σ
  ∧ length (objects Z σ1) = 2%nat
  ∧ is_Some (objects Z σ1 !! 1%nat)
  ∧ objects Z σ !! 1%nat = None.
Proof.
  intros σ σ1.
  refine (allocation_precedes_validation Z sample.zero sample.cast
            sample.fourier_filter sample.fourier_shift op_gaussian 0%nat
            (Scalar 1) (-1) 7 OutNone σ σ1 1%nat (Some 1%nat) AxisOutOfRange
            _ eq_refl _).
  - intros l. discriminate.
  - left. reflexivity.
Defined.

(** [fourier_uniform(ones((4,4)), 3)]: the kernel gets [[3., 3.]], axis 1
    and the new array. *)
Lemma kernel_arguments_witness :
  let σ := sample_state [sample.ones_4_4] [] in
  let c := FourierFilter Z 0%nat
             (as_contiguous_float64 Z sample.cast [3; 3]) (-1) 1 1%nat 1 in
  calls Z (fst (sample_run op_uniform 0%nat (Scalar 3) (-1) (-1) OutNone σ))
    = [c]
  ∧ shape (call_params Z c) = [2%nat]
  ∧ 0 ≤ call_axis Z c < 2
  ∧ call_output Z c = 1%nat.
Proof.
  intros σ c.
  destruct (kernel_arguments Z sample.zero sample.cast sample.fourier_filter
              sample.fourier_shift op_uniform 0%nat (Scalar 3) (-1) (-1)
              OutNone σ c eq_refl)
    as (_ & _ & _ & _ & Hshape & _ & Haxis & _ & Hout & _).
  split; [reflexivity |].
  split; [exact Hshape | split; [exact Haxis | exact Hout]].
Defined.

(** The same call: the kernel starts from the caller's heap plus the new
    array, and the call ends with the heap the kernel leaves. *)
Lemma kernel_entry_heap_witness :
  let σ := sample_state [sample.ones_4_4] [] in
  let params := as_contiguous_float64 Z sample.cast [3; 3] in
  ∃ ext, (length ext ≤ 1)%nat
    ∧ objects Z (fst (sample_run op_uniform 0%nat (Scalar 3) (-1) (-1)
                        OutNone σ))
      = fst (sample.fourier_filter (objects Z σ ++ ext) 0%nat params
               (-1) 1 1%nat 1).
Proof.
  intros σ params.
  destruct (kernel_entry_heap Z sample.zero sample.cast sample.fourier_filter
              sample.fourier_shift op_uniform 0%nat (Scalar 3) (-1) (-1)
              OutNone σ
              (FourierFilter Z 0%nat
                 (as_contiguous_float64 Z sample.cast [3; 3]) (-1) 1 1%nat 1)
              eq_refl)
    as (ext & Hlen & _ & _ & Hheap & _).
  exists ext. split; [exact Hlen | exact Hheap].
Defined.

(** A wrong-length parameter is refused alike by the gaussian and the
    ellipsoid filter. *)
Lemma real_filters_agree_witness :
  let σ := sample_state [sample.ones_4_4] [] in
  sample_run op_ellipsoid 0%nat (PerAxis [1; 2; 3]) (-1) (-1) OutNone σ =
  sample_run op_gaussian 0%nat (PerAxis [1; 2; 3]) (-1) (-1) OutNone σ.
Proof.
  intros σ.
  refine (proj1 (real_filters_agree Z sample.zero sample.cast
                   sample.fourier_filter sample.fourier_shift
                   op_gaussian op_ellipsoid 0%nat (PerAxis [1; 2; 3])
                   (-1) (-1) OutNone σ _ _) eq_refl);
    discriminate.
Defined.
